(** * clearaml.tuning.base: distribution descriptors and parameter tuners

    A shallow embedding of [src/clearaml/tuning/base.py].

    The module is plain Python object code: three value classes whose
    [__init__] stores its arguments as instance attributes, an abstract
    tuner with three class-level attributes and a [best_params] property,
    and [DefaultTuner], whose [fit] stores what the algorithm's
    [init_params_on_input] returns.  What the claims depend on is Python's
    attribute protocol (instance [__dict__] first, then the classes of the
    MRO), assignment to [self], and exceptions.  These are modelled
    directly: objects carry a class and a [gmap] from attribute names to
    values, methods run in a small state-and-exception monad over the
    receiver, the collaborators' state and a log of attribute writes. *)

From stdpp Require Import base option list strings gmap.

Set Warnings "-register-all".

(** ** Python values *)

(** The values that flow through the module.  [VRef] is a reference to an
    object of a collaborator (a [TrainValidIterator], a dataset): this
    module never looks inside one, it only hands it on. *)
Inductive value : Type :=
| VNone
| VBool (b : bool)
| VInt (n : Z)
| VStr (s : string)
| VList (xs : list value)
| VTuple (xs : list value)
| VDict (items : list (string * value))
| VRef (id : positive).

(** Exceptions: the class of the exception and its message. *)
Record exn : Type := Exn { exn_class : string; exn_msg : string }.

Definition AttributeError (msg : string) : exn := Exn "AttributeError" msg.

(** The outcome of evaluating an expression: a value, or a raised exception. *)
Inductive result (A : Type) : Type :=
| Ok (a : A)
| Raise (e : exn).
Arguments Ok {A} a.
Arguments Raise {A} e.

(** ** Classes *)

(** The classes of the module, and [cSubclass name body base] for a class
    declared elsewhere as [class name(base): body] whose [body] does no
    more than assign plain values to class-level attributes.  A subclass
    that declares [__slots__], a property or another descriptor, or that
    overrides [__getattribute__] or [__setattr__], is not one of these. *)
Inductive class : Type :=
| cDistributionBase
| cChoice
| cUniform
| cNormal
| cParamsTuner
| cDefaultTuner
| cSubclass (name : string) (body : gmap string value) (base : class).

(** The class-level attributes assigned in each class body.  Methods and
    the [best_params] property are the functions below, not entries here.

    [ParamsTuner]:  [_name = "AbstractTuner"], [_best_params = None],
                    [_fit_on_holdout = False];
    [DefaultTuner]: [_name = "DefaultTuner"]. *)
Definition class_body (c : class) : gmap string value :=
  match c with
  | cParamsTuner =>
      {[ "_name" := VStr "AbstractTuner";
         "_best_params" := VNone;
         "_fit_on_holdout" := VBool false ]}
  | cDefaultTuner => {[ "_name" := VStr "DefaultTuner" ]}
  | cSubclass _ body _ => body
  | cDistributionBase | cChoice | cUniform | cNormal => ∅
  end.

(** Method resolution order, most derived class first ([ABC] and [object]
    assign none of the attributes of this module and are left out). *)
Fixpoint mro (c : class) : list class :=
  match c with
  | cDistributionBase => [cDistributionBase]
  | cChoice => [cChoice; cDistributionBase]
  | cUniform => [cUniform; cDistributionBase]
  | cNormal => [cNormal; cDistributionBase]
  | cParamsTuner => [cParamsTuner]
  | cDefaultTuner => [cDefaultTuner; cParamsTuner]
  | cSubclass _ _ base => c :: mro base
  end.

(** Lookup of a class-level attribute: the first class of the MRO whose
    body assigns it. *)
Fixpoint lookup_in (cs : list class) (name : string) : option value :=
  match cs with
  | [] => None
  | c :: cs' =>
      match class_body c !! name with
      | Some v => Some v
      | None => lookup_in cs' name
      end
  end.

Definition class_getattr (c : class) (name : string) : option value :=
  lookup_in (mro c) name.

(** [issubclass(c, ParamsTuner)]. *)
Fixpoint is_tuner_class (c : class) : bool :=
  match c with
  | cParamsTuner | cDefaultTuner => true
  | cSubclass _ _ base => is_tuner_class base
  | cDistributionBase | cChoice | cUniform | cNormal => false
  end.

(** ** Objects and the attribute protocol *)

Record object : Type := Object {
  ob_class : class;
  ob_dict : gmap string value   (* the instance [__dict__] *)
}.

(** A new instance, before [__init__] runs: an empty [__dict__]. *)
Definition new_instance (c : class) : object := Object c ∅.

(** [getattr(o, name)]: the instance [__dict__], then the classes. *)
Definition getattr (o : object) (name : string) : result value :=
  match ob_dict o !! name with
  | Some v => Ok v
  | None =>
      match class_getattr (ob_class o) name with
      | Some v => Ok v
      | None => Raise (AttributeError ("object has no attribute '" +:+ name +:+ "'"))
      end
  end.

(** [hasattr(o, name)]: whether [getattr(o, name)] returns. *)
Definition hasattr (o : object) (name : string) : bool :=
  match getattr o name with
  | Ok _ => true
  | Raise _ => false
  end.

(** [o.name = v]: writes the instance [__dict__], never the class. *)
Definition setattr (o : object) (name : string) (v : value) : object :=
  Object (ob_class o) (<[name := v]> (ob_dict o)).

(** ** Method bodies: state and exceptions *)

Section Runtime.

(** The state of everything outside the receiver: the collaborators. *)
Context {World : Type}.

(** What a method body runs on: the receiver [self], the collaborators,
    and the log of the attribute assignments to [self] made so far. *)
Record state : Type := State {
  st_self : object;
  st_world : World;
  st_writes : list (string * value)
}.

Definition M (A : Type) : Type := state → result A * state.

#[export] Instance M_ret : MRet M := λ A a s, (Ok a, s).

(** A raised exception skips the rest of the body. *)
#[export] Instance M_bind : MBind M := λ A B k m s,
  match m s with
  | (Ok a, s') => k a s'
  | (Raise e, s') => (Raise e, s')
  end.

(** [raise e] *)
Definition raise {A : Type} (e : exn) : M A := λ s, (Raise e, s).

(** [hasattr(self, name)] *)
Definition self_hasattr (name : string) : M bool :=
  λ s, (Ok (hasattr (st_self s) name), s).

(** [self.name] *)
Definition self_getattr (name : string) : M value :=
  λ s, (getattr (st_self s) name, s).

(** [self.name = v] *)
Definition self_setattr (name : string) (v : value) : M unit :=
  λ s, (Ok (), State (setattr (st_self s) name v) (st_world s)
                     (st_writes s ++ [(name, v)])).

(** A call into a collaborator: it acts on the collaborators' state and
    returns or raises. *)
Definition call (f : World → result value * World) : M value :=
  λ s, let '(r, w') := f (st_world s) in
       (r, State (st_self s) w' (st_writes s)).

(** *** The algorithm capability

    [MLAlgo] is imported, not defined here; the one operation this
    module calls is [init_params_on_input(train_valid_iterator=...)]. *)
Record MLAlgo : Type := {
  init_params_on_input : value → World → result value * World
}.

(** *** Distribution descriptors *)

(** [Choice.__init__(self, options)] *)
Definition Choice__init__ (options : value) : M unit :=
  self_setattr "options" options.

(** [Uniform.__init__(self, low, high, q=None, log=False)] *)
Definition Uniform__init__ (low high : value) (q log : option value) : M unit :=
  let q := default VNone q in
  let log := default (VBool false) log in
  self_setattr "low" low;;
  self_setattr "high" high;;
  self_setattr "q" q;;
  self_setattr "log" log.

(** [Normal.__init__(self, low, high, q=None, log=False)] *)
Definition Normal__init__ (low high : value) (q log : option value) : M unit :=
  let q := default VNone q in
  let log := default (VBool false) log in
  self_setattr "low" low;;
  self_setattr "high" high;;
  self_setattr "q" q;;
  self_setattr "log" log.

(** The call [C(args)]: a new instance of [C], then [C.__init__] on it.
    The expression evaluates to the instance, or raises what
    [__init__] raised. *)
Definition construct (c : class) (init : M unit) (w : World)
  : result object * World :=
  match init (State (new_instance c) w []) with
  | (Ok _, s) => (Ok (st_self s), st_world s)
  | (Raise e, s) => (Raise e, st_world s)
  end.

Definition Choice (options : value) :=
  construct cChoice (Choice__init__ options).
Definition Uniform (low high : value) (q log : option value) :=
  construct cUniform (Uniform__init__ low high q log).
Definition Normal (low high : value) (q log : option value) :=
  construct cNormal (Normal__init__ low high q log).

(** *** ParamsTuner *)

(** The getter of the [best_params] property. *)
Definition ParamsTuner_best_params : M value :=
  has ← self_hasattr "_best_params";
  if negb has
  then raise (AttributeError "ParamsTuner should be fitted first")
  else self_getattr "_best_params".

(** *** DefaultTuner *)

(** [DefaultTuner.fit(self, ml_algo, train_valid_iterator=None)] *)
Definition DefaultTuner_fit (ml_algo : MLAlgo)
    (train_valid_iterator : option value) : M value :=
  let train_valid_iterator := default VNone train_valid_iterator in
  p ← call (init_params_on_input ml_algo train_valid_iterator);
  self_setattr "_best_params" p;;
  mret (VTuple [VNone; VNone]).

End Runtime.

Arguments state : clear implicits.
Arguments M : clear implicits.
Arguments MLAlgo : clear implicits.

(** [DefaultTuner()]: the class defines no [__init__]. *)
Definition DefaultTuner : object := new_instance cDefaultTuner.

(** The state in which a method is entered on [self]: nothing written yet. *)
Definition enter {World : Type} (self : object) (w : World) : state World :=
  State self w [].

(** How many times attribute [name] of [self] was assigned. *)
Definition writes_to (name : string) (log : list (string * value)) : nat :=
  length (filter (λ nv, nv.1 = name) log).

(** The two halves of running a method body. *)
Definition outcome {World A : Type} (m : M World A) (s : state World) : result A :=
  (m s).1.
Definition after {World A : Type} (m : M World A) (s : state World) : state World :=
  (m s).2.

(** ** Test doubles for the algorithm *)

(** An algorithm whose [init_params_on_input] returns [p] whatever it is given. *)
Definition returning {World : Type} (p : value) : MLAlgo World :=
  {| init_params_on_input := λ _ w, (Ok p, w) |}.

(** An algorithm whose [init_params_on_input] raises [e]. *)
Definition raising {World : Type} (e : exn) : MLAlgo World :=
  {| init_params_on_input := λ _ w, (Raise e, w) |}.

(** A spy around [ml_algo]: it behaves as [ml_algo] and appends the
    [train_valid_iterator] it received to a list kept next to the world. *)
Definition spy {World : Type} (ml_algo : MLAlgo World) : MLAlgo (World * list value) :=
  {| init_params_on_input := λ tvi ws,
       let '(r, w') := init_params_on_input ml_algo tvi ws.1 in
       (r, (w', ws.2 ++ [tvi])) |}.

(** ** A caller that fits one tuner several times *)

(** The state left by calling [fit] on one tuner once per entry of
    [calls], in order, the caller catching whatever a call raises:

      for ml_algo, it in calls:
          try: tuner.fit(ml_algo, it)
          except Exception: pass                                      *)
Fixpoint fit_each {World : Type} (calls : list (MLAlgo World * option value))
    (s : state World) : state World :=
  match calls with
  | [] => s
  | (ml_algo, it) :: calls' => fit_each calls' (after (DefaultTuner_fit ml_algo it) s)
  end.

(** What the algorithms of [calls] do when their [init_params_on_input]
    are run in order from world [w], each on the iterator of its entry:
    the value returned by the last one that returned, if any did. *)
Fixpoint last_returned {World : Type} (calls : list (MLAlgo World * option value))
    (w : World) : option value :=
  match calls with
  | [] => None
  | (ml_algo, it) :: calls' =>
      let '(r, w') := init_params_on_input ml_algo (default VNone it) w in
      match last_returned calls' w' with
      | Some p => Some p
      | None => match r with Ok p => Some p | Raise _ => None end
      end
  end.

(** * Properties *)

(** ** The attribute protocol *)

Section Attributes.

Implicit Types (o : object) (c : class) (name : string) (v : value).

Lemma getattr_setattr_eq o name v : getattr (setattr o name v) name = Ok v.
Proof. unfold getattr, setattr; simpl. by rewrite lookup_insert_eq. Qed.

Lemma getattr_setattr_ne o name name' v :
  name ≠ name' → getattr (setattr o name v) name' = getattr o name'.
Proof. intros Hne. unfold getattr, setattr; simpl. by rewrite lookup_insert_ne. Qed.

Lemma hasattr_setattr o name v : hasattr (setattr o name v) name = true.
Proof. unfold hasattr. by rewrite getattr_setattr_eq. Qed.

Lemma setattr_setattr o name v v' :
  setattr (setattr o name v) name v' = setattr o name v'.
Proof. unfold setattr; simpl. by rewrite insert_insert_eq. Qed.

(** Each of the classes above that derives from [ParamsTuner] inherits
    (or overrides) the class-level [_best_params]. *)
Lemma tuner_class_has_best_params c :
  is_tuner_class c = true → is_Some (class_getattr c "_best_params").
Proof.
  unfold class_getattr.
  induction c as [ | | | | | | n body base IH]; simpl; try discriminate.
  - intros _. by eexists.
  - intros _. by eexists.
  - intros Hb. destruct (body !! "_best_params") as [v|]; [by eexists | auto].
Qed.

Lemma tuner_hasattr_best_params o :
  is_tuner_class (ob_class o) = true → hasattr o "_best_params" = true.
Proof.
  intros [v Hv]%tuner_class_has_best_params.
  unfold hasattr, getattr. destruct (ob_dict o !! "_best_params"); [done |].
  by rewrite Hv.
Qed.

End Attributes.

(** ** Running the two tuner methods *)

Section Tuner.

Context {World : Type}.
Implicit Types (s : state World) (ml_algo : MLAlgo World) (w : World)
  (p v : value) (e : exn) (it : option value).

(** [fit] in one step, by the outcome of the algorithm's operation. *)
Lemma fit_returns ml_algo it s p w :
  init_params_on_input ml_algo (default VNone it) (st_world s) = (Ok p, w) →
  DefaultTuner_fit ml_algo it s =
    (Ok (VTuple [VNone; VNone]),
     State (setattr (st_self s) "_best_params" p) w
           (st_writes s ++ [("_best_params", p)])).
Proof.
  intros Hcall. unfold DefaultTuner_fit, mbind, M_bind, call.
  by rewrite Hcall.
Qed.

Lemma fit_raises ml_algo it s e w :
  init_params_on_input ml_algo (default VNone it) (st_world s) = (Raise e, w) →
  DefaultTuner_fit ml_algo it s = (Raise e, State (st_self s) w (st_writes s)).
Proof.
  intros Hcall. unfold DefaultTuner_fit, mbind, M_bind, call.
  by rewrite Hcall.
Qed.

(** The getter returns whatever [getattr] finds, when it finds something. *)
Lemma best_params_found s v :
  getattr (st_self s) "_best_params" = Ok v →
  ParamsTuner_best_params s = (Ok v, s).
Proof.
  intros Hget.
  unfold ParamsTuner_best_params, mbind, M_bind, self_hasattr, self_getattr, hasattr.
  rewrite Hget; simpl. by rewrite Hget.
Qed.

(** What the getter returns depends on the receiver alone. *)
Lemma best_params_reads_self s s' :
  st_self s = st_self s' →
  outcome ParamsTuner_best_params s = outcome ParamsTuner_best_params s'.
Proof.
  intros Hself.
  unfold outcome, ParamsTuner_best_params, mbind, M_bind, self_hasattr, self_getattr, raise.
  simpl. rewrite Hself.
  destruct (hasattr (st_self s') "_best_params"); simpl; [by rewrite Hself | done].
Qed.

(** On an instance of one of the classes above that derives from
    [ParamsTuner], in any state, the getter returns: its [raise] is not
    reached. *)
Lemma best_params_never_raises s :
  is_tuner_class (ob_class (st_self s)) = true →
  ∃ v, ParamsTuner_best_params s = (Ok v, s).
Proof.
  intros Htuner. pose proof (tuner_hasattr_best_params _ Htuner) as Hhas.
  unfold hasattr in Hhas.
  destruct (getattr (st_self s) "_best_params") as [v|e] eqn:Hget; [|done].
  exists v. by apply best_params_found.
Qed.

End Tuner.

(** C1 (the code departs from the claim).  Reading [best_params] on a
    freshly constructed [DefaultTuner], before any [fit], does not raise:
    [hasattr(self, "_best_params")] finds the class-level
    [_best_params = None] of [ParamsTuner], so the getter returns [None]
    and leaves the tuner as it was. *)
Theorem best_params_before_fit_returns_None :
  ∀ (World : Type) (w : World),
    ParamsTuner_best_params (enter DefaultTuner w) = (Ok VNone, enter DefaultTuner w).
Proof. intros World w. apply best_params_found. reflexivity. Qed.

(** C2.  When [init_params_on_input(None)] returns [P], [fit(algorithm)]
    with the iterator omitted returns the pair [(None, None)] and
    [best_params] then returns [P]. *)
Theorem fit_stores_algorithm_defaults :
  ∀ (World : Type) (ml_algo : MLAlgo World) (s : state World) (P : value) (w : World),
    init_params_on_input ml_algo VNone (st_world s) = (Ok P, w) →
    outcome (DefaultTuner_fit ml_algo None) s = Ok (VTuple [VNone; VNone]) ∧
    outcome ParamsTuner_best_params (after (DefaultTuner_fit ml_algo None) s) = Ok P.
Proof.
  intros World ml_algo s P w Hcall. unfold outcome, after.
  rewrite (fit_returns ml_algo None s P w Hcall); simpl. split; [done |].
  erewrite best_params_found; [done |]. apply getattr_setattr_eq.
Qed.

Lemma fit_stores_algorithm_defaults_witness :
  let P := VDict [("max_depth", VInt 6); ("booster", VStr "gbtree")] in
  outcome (DefaultTuner_fit (returning P) None) (enter DefaultTuner ()) =
    Ok (VTuple [VNone; VNone]) ∧
  outcome ParamsTuner_best_params
    (after (DefaultTuner_fit (returning P) None) (enter DefaultTuner ())) = Ok P.
Proof.
  intros P.
  apply (fit_stores_algorithm_defaults unit (returning P) (enter DefaultTuner ()) P ()).
  reflexivity.
Defined.

(** C4.  After [fit(A1)] and then [fit(A2)] on one tuner, [best_params]
    returns what [A2] returned and the tuner is the one a single
    assignment of that value to the original tuner gives: nothing of the
    first call is left.  (Whether [A1] returned or raised does not matter.) *)
Theorem fit_last_call_wins :
  ∀ (World : Type) (A1 A2 : MLAlgo World) (it1 it2 : option value)
    (s : state World) (P2 : value) (w : World),
    init_params_on_input A2 (default VNone it2)
      (st_world (after (DefaultTuner_fit A1 it1) s)) = (Ok P2, w) →
    let s2 := after (DefaultTuner_fit A2 it2) (after (DefaultTuner_fit A1 it1) s) in
    outcome ParamsTuner_best_params s2 = Ok P2 ∧
    st_self s2 = setattr (st_self s) "_best_params" P2.
Proof.
  intros World A1 A2 it1 it2 s P2 w Hcall s2. subst s2. unfold outcome, after in *.
  rewrite (fit_returns A2 it2 _ P2 w Hcall); simpl.
  split.
  - erewrite best_params_found; [done |]. apply getattr_setattr_eq.
  - destruct (init_params_on_input A1 (default VNone it1) (st_world s))
      as [[p1|e1] w1] eqn:Hcall1.
    + rewrite (fit_returns A1 it1 s p1 w1 Hcall1); simpl. apply setattr_setattr.
    + by rewrite (fit_raises A1 it1 s e1 w1 Hcall1).
Qed.

Lemma fit_last_call_wins_witness :
  let P1 := VDict [("lr", VInt 1)] in
  let P2 := VDict [("depth", VInt 3)] in
  let s2 := after (DefaultTuner_fit (returning P2) None)
              (after (DefaultTuner_fit (returning P1) None) (enter DefaultTuner ())) in
  outcome ParamsTuner_best_params s2 = Ok P2 ∧
  st_self s2 = setattr DefaultTuner "_best_params" P2.
Proof.
  intros P1 P2.
  apply (fit_last_call_wins unit (returning P1) (returning P2) None None
           (enter DefaultTuner ()) P2 ()).
  reflexivity.
Defined.

(** What a spy around the algorithm has recorded after [fit]: one more
    argument, the iterator given, or [None] when it was omitted. *)
Lemma spy_records {World : Type} (ml_algo : MLAlgo World) (it : option value)
    (s : state (World * list value)) :
  (st_world (after (DefaultTuner_fit (spy ml_algo) it) s)).2 =
    (st_world s).2 ++ [default VNone it].
Proof.
  destruct s as [self [w seen] log]. unfold after.
  destruct (init_params_on_input ml_algo (default VNone it) w) as [[p|e] w'] eqn:Hcall.
  - rewrite (fit_returns (spy ml_algo) it _ p (w', seen ++ [default VNone it])); [done |].
    simpl. by rewrite Hcall.
  - rewrite (fit_raises (spy ml_algo) it _ e (w', seen ++ [default VNone it])); [done |].
    simpl. by rewrite Hcall.
Qed.

(** C5.  [fit(algorithm, it)] hands exactly [it] to the algorithm's
    [init_params_on_input]: around any algorithm, a spy that records the
    [train_valid_iterator] it receives has recorded, after the call, one
    more argument, and that argument is [it] ([it] may be [None]). *)
Theorem fit_forwards_iterator :
  ∀ (World : Type) (ml_algo : MLAlgo World) (it : value)
    (s : state (World * list value)),
    (st_world (after (DefaultTuner_fit (spy ml_algo) (Some it)) s)).2 =
      (st_world s).2 ++ [it].
Proof. intros World ml_algo it s. apply (spy_records ml_algo (Some it) s). Qed.

(** C6.  When the algorithm's [init_params_on_input] raises [e], [fit]
    raises the same [e], and the tuner is exactly as before the call:
    same object, no attribute written, [best_params] reads as it did. *)
Theorem fit_error_propagates :
  ∀ (World : Type) (ml_algo : MLAlgo World) (it : option value)
    (s : state World) (e : exn) (w : World),
    init_params_on_input ml_algo (default VNone it) (st_world s) = (Raise e, w) →
    outcome (DefaultTuner_fit ml_algo it) s = Raise e ∧
    st_self (after (DefaultTuner_fit ml_algo it) s) = st_self s ∧
    st_writes (after (DefaultTuner_fit ml_algo it) s) = st_writes s ∧
    outcome ParamsTuner_best_params (after (DefaultTuner_fit ml_algo it) s) =
      outcome ParamsTuner_best_params s.
Proof.
  intros World ml_algo it s e w Hcall. unfold outcome, after.
  rewrite (fit_raises ml_algo it s e w Hcall); simpl.
  repeat split. by apply best_params_reads_self.
Qed.

Lemma fit_error_propagates_witness :
  outcome (DefaultTuner_fit (raising (Exn "ValueError" "empty dataset")) (Some (VRef 1)))
    (enter DefaultTuner ()) = Raise (Exn "ValueError" "empty dataset") ∧
  st_self (after (DefaultTuner_fit (raising (Exn "ValueError" "empty dataset")) (Some (VRef 1)))
             (enter DefaultTuner ())) = DefaultTuner ∧
  st_writes (after (DefaultTuner_fit (raising (Exn "ValueError" "empty dataset")) (Some (VRef 1)))
               (enter DefaultTuner ())) = [] ∧
  outcome ParamsTuner_best_params
    (after (DefaultTuner_fit (raising (Exn "ValueError" "empty dataset")) (Some (VRef 1)))
       (enter DefaultTuner ())) =
    outcome ParamsTuner_best_params (enter DefaultTuner ()).
Proof.
  apply (fit_error_propagates unit (raising (Exn "ValueError" "empty dataset"))
           (Some (VRef 1)) (enter DefaultTuner ()) (Exn "ValueError" "empty dataset") ()).
  reflexivity.
Defined.

(** C7, as stated, fails: in a call of [fit] in which the algorithm
    raises, [_best_params] is not written once but not at all. *)
Lemma fit_of_raising_algorithm_writes_nothing :
  writes_to "_best_params"
    (st_writes (after (DefaultTuner_fit (raising (Exn "ValueError" "empty dataset")) None)
                  (enter DefaultTuner ()))) ≠ 1.
Proof. vm_compute. discriminate. Qed.

(** C7, amended.  A call of [fit] appends to the log of writes one
    assignment of [_best_params] when the algorithm returns and nothing
    when it raises; in both cases the class of the tuner, every other
    entry of its [__dict__], its [_name] and its [_fit_on_holdout] are
    what they were. *)
Theorem fit_writes_only_best_params :
  ∀ (World : Type) (ml_algo : MLAlgo World) (it : option value) (s : state World),
    st_writes (after (DefaultTuner_fit ml_algo it) s) =
      st_writes s ++
        match (init_params_on_input ml_algo (default VNone it) (st_world s)).1 with
        | Ok p => [("_best_params", p)]
        | Raise _ => []
        end ∧
    ob_class (st_self (after (DefaultTuner_fit ml_algo it) s)) = ob_class (st_self s) ∧
    delete "_best_params" (ob_dict (st_self (after (DefaultTuner_fit ml_algo it) s))) =
      delete "_best_params" (ob_dict (st_self s)) ∧
    getattr (st_self (after (DefaultTuner_fit ml_algo it) s)) "_name" =
      getattr (st_self s) "_name" ∧
    getattr (st_self (after (DefaultTuner_fit ml_algo it) s)) "_fit_on_holdout" =
      getattr (st_self s) "_fit_on_holdout".
Proof.
  intros World ml_algo it s. unfold after.
  destruct (init_params_on_input ml_algo (default VNone it) (st_world s))
    as [[p|e] w] eqn:Hcall.
  - rewrite (fit_returns ml_algo it s p w Hcall); simpl.
    repeat split.
    + apply delete_insert_eq.
    + by apply getattr_setattr_ne.
    + by apply getattr_setattr_ne.
  - rewrite (fit_raises ml_algo it s e w Hcall); simpl.
    repeat split. symmetry. apply app_nil_r.
Qed.

(** ** Distribution descriptors *)

Section Descriptors.

Context {World : Type}.
Implicit Types (w : World) (low high options : value) (q log : option value).

(** The three constructor calls, evaluated: each returns an instance
    whose [__dict__] holds the arguments, and hands the world back. *)
Lemma Choice_eval options w :
  Choice options w = (Ok (Object cChoice {[ "options" := options ]}), w).
Proof. reflexivity. Qed.

Lemma Uniform_eval low high q log w :
  Uniform low high q log w =
    (Ok (Object cUniform
           (<["log" := default (VBool false) log]>
              (<["q" := default VNone q]> (<["high" := high]> {[ "low" := low ]})))),
     w).
Proof. reflexivity. Qed.

Lemma Normal_eval low high q log w :
  Normal low high q log w =
    (Ok (Object cNormal
           (<["log" := default (VBool false) log]>
              (<["q" := default VNone q]> (<["high" := high]> {[ "low" := low ]})))),
     w).
Proof. reflexivity. Qed.

(** Reading the four range attributes of an instance built that way. *)
Lemma range_fields (c : class) low high (vq vlog : value) :
  let o := Object c (<["log" := vlog]> (<["q" := vq]> (<["high" := high]> {[ "low" := low ]}))) in
  getattr o "low" = Ok low ∧ getattr o "high" = Ok high ∧
  getattr o "q" = Ok vq ∧ getattr o "log" = Ok vlog.
Proof.
  intros o. subst o. unfold getattr; simpl.
  repeat split; by simplify_map_eq.
Qed.

End Descriptors.

(** C3.  The descriptors give back their constructor arguments:
    [Uniform(low, high, q, log)] has attributes [low], [high], [q], [log]
    equal to the arguments, [Choice(options)] has [options] equal to the
    (ordered) list given, and [Normal] is as [Uniform]. *)
Theorem descriptors_round_trip :
  ∀ (World : Type) (w : World) (low high q log options : value),
    (∃ o, (Uniform low high (Some q) (Some log) w).1 = Ok o ∧
          getattr o "low" = Ok low ∧ getattr o "high" = Ok high ∧
          getattr o "q" = Ok q ∧ getattr o "log" = Ok log) ∧
    (∃ o, (Choice options w).1 = Ok o ∧ getattr o "options" = Ok options) ∧
    (∃ o, (Normal low high (Some q) (Some log) w).1 = Ok o ∧
          getattr o "low" = Ok low ∧ getattr o "high" = Ok high ∧
          getattr o "q" = Ok q ∧ getattr o "log" = Ok log).
Proof.
  intros World w low high q log options. split; [| split].
  - rewrite Uniform_eval. eexists; split; [reflexivity |]. apply range_fields.
  - rewrite Choice_eval. eexists; split; [reflexivity |].
    unfold getattr; simpl. by rewrite lookup_singleton_eq.
  - rewrite Normal_eval. eexists; split; [reflexivity |]. apply range_fields.
Qed.

(** The examples of the specification: [Uniform(1, 10, q=2, log=True)]
    and [Choice(["a", "b"])]. *)
Example Uniform_1_10_2_True :
  ∀ o, (Uniform (VInt 1) (VInt 10) (Some (VInt 2)) (Some (VBool true)) ()).1 = Ok o →
       getattr o "low" = Ok (VInt 1) ∧ getattr o "high" = Ok (VInt 10) ∧
       getattr o "q" = Ok (VInt 2) ∧ getattr o "log" = Ok (VBool true).
Proof. intros o [= <-]. by vm_compute. Qed.

Example Choice_a_b :
  ∀ o, (Choice (VList [VStr "a"; VStr "b"]) ()).1 = Ok o →
       getattr o "options" = Ok (VList [VStr "a"; VStr "b"]).
Proof. intros o [= <-]. by vm_compute. Qed.

(** C8.  Construction is total: whatever the arguments (given or
    omitted), each constructor call returns an instance of its class,
    raises nothing and leaves the world as it found it. *)
Theorem descriptor_construction_total :
  ∀ (World : Type) (w : World) (low high options : value) (q log : option value),
    (∃ o, Choice options w = (Ok o, w) ∧ ob_class o = cChoice) ∧
    (∃ o, Uniform low high q log w = (Ok o, w) ∧ ob_class o = cUniform) ∧
    (∃ o, Normal low high q log w = (Ok o, w) ∧ ob_class o = cNormal).
Proof.
  intros World w low high options q log.
  rewrite Choice_eval, Uniform_eval, Normal_eval. repeat split; by eexists.
Qed.

(** Arguments a validating constructor would refuse: [low > high],
    [q <= 0], no options. *)
Example Uniform_unvalidated :
  ∃ o, Uniform (VInt 10) (VInt 1) (Some (VInt (-2))) None () = (Ok o, ()) ∧
       getattr o "low" = Ok (VInt 10) ∧ getattr o "high" = Ok (VInt 1) ∧
       getattr o "q" = Ok (VInt (-2)).
Proof. eexists. by vm_compute. Qed.

Example Choice_of_nothing :
  ∃ o, Choice (VList []) () = (Ok o, ()) ∧ getattr o "options" = Ok (VList []).
Proof. eexists. by vm_compute. Qed.

(** C9.  [Normal] has the constructor of [Uniform]: the two [__init__]
    are the same function of their arguments, and [Normal(low, high, q,
    log)] stores under [low], [high], [q], [log] the arguments it was
    given ([None] and [False] for an omitted [q] and [log]), which are the
    values [Uniform(low, high, q, log)] stores: the two instances have
    the same [__dict__]. *)
Theorem Normal_stores_as_Uniform :
  ∀ (World : Type) (w : World) (low high : value) (q log : option value),
    @Normal__init__ World low high q log = @Uniform__init__ World low high q log ∧
    ∃ n u, (Normal low high q log w).1 = Ok n ∧ (Uniform low high q log w).1 = Ok u ∧
           ob_dict n = ob_dict u ∧
           (getattr n "low" = Ok low ∧ getattr n "high" = Ok high ∧
            getattr n "q" = Ok (default VNone q) ∧
            getattr n "log" = Ok (default (VBool false) log)) ∧
           (getattr u "low" = Ok low ∧ getattr u "high" = Ok high ∧
            getattr u "q" = Ok (default VNone q) ∧
            getattr u "log" = Ok (default (VBool false) log)).
Proof.
  intros World w low high q log. split; [reflexivity |].
  rewrite Normal_eval, Uniform_eval. do 2 eexists.
  split; [reflexivity |]. split; [reflexivity |]. split; [reflexivity |].
  split; apply range_fields.
Qed.

(** C10.  Omitted arguments and class-level defaults: an omitted [q] is
    stored as [None] and an omitted [log] as [False], by [Uniform] and by
    [Normal]; [fit] without an iterator hands [None] to the algorithm;
    [_name] is ["AbstractTuner"] on [ParamsTuner] and ["DefaultTuner"] on
    [DefaultTuner], and [_fit_on_holdout] is [False] on both. *)
Theorem defaults_when_omitted :
  ∀ (World : Type) (w : World) (ml_algo : MLAlgo World)
    (s : state (World * list value)) (low high : value) (q log : option value),
    (∃ o, (Uniform low high None log w).1 = Ok o ∧ getattr o "q" = Ok VNone) ∧
    (∃ o, (Uniform low high q None w).1 = Ok o ∧ getattr o "log" = Ok (VBool false)) ∧
    (∃ o, (Normal low high None log w).1 = Ok o ∧ getattr o "q" = Ok VNone) ∧
    (∃ o, (Normal low high q None w).1 = Ok o ∧ getattr o "log" = Ok (VBool false)) ∧
    (st_world (after (DefaultTuner_fit (spy ml_algo) None) s)).2 = (st_world s).2 ++ [VNone] ∧
    class_getattr cParamsTuner "_name" = Some (VStr "AbstractTuner") ∧
    class_getattr cParamsTuner "_fit_on_holdout" = Some (VBool false) ∧
    getattr DefaultTuner "_name" = Ok (VStr "DefaultTuner") ∧
    getattr DefaultTuner "_fit_on_holdout" = Ok (VBool false).
Proof.
  intros World w ml_algo s low high q log.
  rewrite !Uniform_eval, !Normal_eval.
  repeat split; try (eexists; split; [reflexivity | apply range_fields]).
  apply (spy_records ml_algo None s).
Qed.


(** * Further properties of the code *)

(** ** The getter on a [DefaultTuner] in any state *)

(** X1.  On a [DefaultTuner], whatever its [__dict__] holds, the
    [best_params] getter raises nothing and changes nothing: it returns
    the instance's own [_best_params] when the [__dict__] has one, and
    otherwise the class-level [None]. *)
Theorem best_params_total_on_DefaultTuner :
  ∀ (World : Type) (s : state World),
    ob_class (st_self s) = cDefaultTuner →
    ParamsTuner_best_params s =
      (Ok (default VNone (ob_dict (st_self s) !! "_best_params")), s).
Proof.
  intros World s Hclass. apply best_params_found.
  unfold getattr. rewrite Hclass.
  by destruct (ob_dict (st_self s) !! "_best_params").
Qed.

Lemma best_params_total_on_DefaultTuner_witness :
  ParamsTuner_best_params
    (enter (setattr (setattr DefaultTuner "_best_params" (VDict [("depth", VInt 3)]))
              "_fit_on_holdout" (VBool true)) ()) =
    (Ok (default VNone
           (ob_dict (setattr (setattr DefaultTuner "_best_params" (VDict [("depth", VInt 3)]))
                       "_fit_on_holdout" (VBool true)) !! "_best_params")),
     enter (setattr (setattr DefaultTuner "_best_params" (VDict [("depth", VInt 3)]))
              "_fit_on_holdout" (VBool true)) ()).
Proof.
  apply (best_params_total_on_DefaultTuner unit
           (enter (setattr (setattr DefaultTuner "_best_params" (VDict [("depth", VInt 3)]))
                     "_fit_on_holdout" (VBool true)) ())).
  reflexivity.
Defined.

(** ** [fit] with an iterator, and a failed [fit] after a successful one *)

(** X2.  With an iterator [it] given: when [init_params_on_input(it)]
    returns [P], [fit(algorithm, it)] returns [(None, None)],
    [best_params] then returns [P], and the collaborators are left as the
    algorithm left them. *)
Theorem fit_with_iterator_stores_defaults :
  ∀ (World : Type) (ml_algo : MLAlgo World) (it : value) (s : state World)
    (P : value) (w : World),
    init_params_on_input ml_algo it (st_world s) = (Ok P, w) →
    outcome (DefaultTuner_fit ml_algo (Some it)) s = Ok (VTuple [VNone; VNone]) ∧
    outcome ParamsTuner_best_params (after (DefaultTuner_fit ml_algo (Some it)) s) = Ok P ∧
    st_world (after (DefaultTuner_fit ml_algo (Some it)) s) = w.
Proof.
  intros World ml_algo it s P w Hcall. unfold outcome, after.
  rewrite (fit_returns ml_algo (Some it) s P w Hcall); simpl.
  repeat split. erewrite best_params_found; [done |]. apply getattr_setattr_eq.
Qed.

Lemma fit_with_iterator_stores_defaults_witness :
  outcome (DefaultTuner_fit (spy (returning (VDict [("depth", VInt 3)]))) (Some (VRef 7)))
    (enter DefaultTuner ((), [])) = Ok (VTuple [VNone; VNone]) ∧
  outcome ParamsTuner_best_params
    (after (DefaultTuner_fit (spy (returning (VDict [("depth", VInt 3)]))) (Some (VRef 7)))
       (enter DefaultTuner ((), []))) = Ok (VDict [("depth", VInt 3)]) ∧
  st_world
    (after (DefaultTuner_fit (spy (returning (VDict [("depth", VInt 3)]))) (Some (VRef 7)))
       (enter DefaultTuner ((), []))) = ((), [VRef 7]).
Proof.
  apply (fit_with_iterator_stores_defaults (unit * list value)
           (spy (returning (VDict [("depth", VInt 3)]))) (VRef 7)
           (enter DefaultTuner ((), [])) (VDict [("depth", VInt 3)]) ((), [VRef 7])).
  reflexivity.
Defined.

(** X3.  A [fit] that fails after one that succeeded leaves the earlier
    result in place: when [A1] returned [P1] and, next, [A2] raises [e],
    the second call raises [e] and [best_params] still returns [P1]. *)
Theorem failed_fit_keeps_previous_result :
  ∀ (World : Type) (A1 A2 : MLAlgo World) (it1 it2 : option value)
    (s : state World) (P1 : value) (e : exn) (w1 w2 : World),
    init_params_on_input A1 (default VNone it1) (st_world s) = (Ok P1, w1) →
    init_params_on_input A2 (default VNone it2) w1 = (Raise e, w2) →
    outcome (DefaultTuner_fit A2 it2) (after (DefaultTuner_fit A1 it1) s) = Raise e ∧
    outcome ParamsTuner_best_params
      (after (DefaultTuner_fit A2 it2) (after (DefaultTuner_fit A1 it1) s)) = Ok P1.
Proof.
  intros World A1 A2 it1 it2 s P1 e w1 w2 Hcall1 Hcall2. unfold outcome, after.
  rewrite (fit_returns A1 it1 s P1 w1 Hcall1); simpl.
  rewrite (fit_raises A2 it2 (State _ w1 _) e w2 Hcall2); simpl.
  split; [done |]. erewrite best_params_found; [done |]. apply getattr_setattr_eq.
Qed.

Lemma failed_fit_keeps_previous_result_witness :
  outcome (DefaultTuner_fit (raising (Exn "ValueError" "empty dataset")) None)
    (after (DefaultTuner_fit (returning (VDict [("lr", VInt 1)])) None)
       (enter DefaultTuner ())) = Raise (Exn "ValueError" "empty dataset") ∧
  outcome ParamsTuner_best_params
    (after (DefaultTuner_fit (raising (Exn "ValueError" "empty dataset")) None)
       (after (DefaultTuner_fit (returning (VDict [("lr", VInt 1)])) None)
          (enter DefaultTuner ()))) = Ok (VDict [("lr", VInt 1)]).
Proof.
  apply (failed_fit_keeps_previous_result unit
           (returning (VDict [("lr", VInt 1)])) (raising (Exn "ValueError" "empty dataset"))
           None None (enter DefaultTuner ()) (VDict [("lr", VInt 1)])
           (Exn "ValueError" "empty dataset") () ()); reflexivity.
Defined.

(** ** What a descriptor stores *)

(** X4.  A descriptor stores its arguments and nothing else: the
    [__dict__] of a [Choice] has the one key [options], and that of a
    [Uniform] or a [Normal] exactly the keys [low], [high], [q], [log],
    also when [q] and [log] were omitted. *)
Theorem descriptor_dict_keys :
  ∀ (World : Type) (w : World) (low high options : value) (q log : option value),
    (∃ o, (Choice options w).1 = Ok o ∧
          dom (ob_dict o) = ({[ "options" ]} : gset string)) ∧
    (∃ o, (Uniform low high q log w).1 = Ok o ∧
          dom (ob_dict o) = ({[ "low"; "high"; "q"; "log" ]} : gset string)) ∧
    (∃ o, (Normal low high q log w).1 = Ok o ∧
          dom (ob_dict o) = ({[ "low"; "high"; "q"; "log" ]} : gset string)).
Proof.
  intros World w low high options q log.
  rewrite Choice_eval, Uniform_eval, Normal_eval.
  repeat split; eexists; (split; [reflexivity |]); simpl;
    rewrite ?dom_insert_L, dom_singleton_L; set_solver.
Qed.

(** ** Class-level attributes as defaults *)

(** X5.  On a [DefaultTuner], whatever its [__dict__] holds, the three
    class-level attributes are defaults and reading them never raises
    [AttributeError]: [_name], [_fit_on_holdout] and [_best_params] read
    as the instance's own value when its [__dict__] has one, and
    otherwise as ["DefaultTuner"], [False] and [None]. *)
Theorem DefaultTuner_class_defaults :
  ∀ (o : object),
    ob_class o = cDefaultTuner →
    getattr o "_name" = Ok (default (VStr "DefaultTuner") (ob_dict o !! "_name")) ∧
    getattr o "_fit_on_holdout" =
      Ok (default (VBool false) (ob_dict o !! "_fit_on_holdout")) ∧
    getattr o "_best_params" = Ok (default VNone (ob_dict o !! "_best_params")).
Proof.
  intros o Hclass. unfold getattr. rewrite Hclass. repeat split.
  - by destruct (ob_dict o !! "_name").
  - by destruct (ob_dict o !! "_fit_on_holdout").
  - by destruct (ob_dict o !! "_best_params").
Qed.

Lemma DefaultTuner_class_defaults_witness :
  getattr (setattr DefaultTuner "_fit_on_holdout" (VBool true)) "_name" =
    Ok (default (VStr "DefaultTuner")
          (ob_dict (setattr DefaultTuner "_fit_on_holdout" (VBool true)) !! "_name")) ∧
  getattr (setattr DefaultTuner "_fit_on_holdout" (VBool true)) "_fit_on_holdout" =
    Ok (default (VBool false)
          (ob_dict (setattr DefaultTuner "_fit_on_holdout" (VBool true)) !! "_fit_on_holdout")) ∧
  getattr (setattr DefaultTuner "_fit_on_holdout" (VBool true)) "_best_params" =
    Ok (default VNone
          (ob_dict (setattr DefaultTuner "_fit_on_holdout" (VBool true)) !! "_best_params")).
Proof.
  apply (DefaultTuner_class_defaults (setattr DefaultTuner "_fit_on_holdout" (VBool true))).
  reflexivity.
Defined.

(** ** Any number of calls of [fit] on one tuner *)

Section Sequences.

Context {World : Type}.
Implicit Types (s : state World) (ml_algo : MLAlgo World) (it : option value)
  (calls : list (MLAlgo World * option value)).

(** One call of [fit], by what the algorithm does. *)
Lemma fit_step ml_algo it s :
  after (DefaultTuner_fit ml_algo it) s =
    match init_params_on_input ml_algo (default VNone it) (st_world s) with
    | (Ok p, w) => State (setattr (st_self s) "_best_params" p) w
                         (st_writes s ++ [("_best_params", p)])
    | (Raise _, w) => State (st_self s) w (st_writes s)
    end.
Proof.
  unfold after.
  destruct (init_params_on_input ml_algo (default VNone it) (st_world s))
    as [[p|e] w] eqn:Hcall.
  - by rewrite (fit_returns ml_algo it s p w Hcall).
  - by rewrite (fit_raises ml_algo it s e w Hcall).
Qed.

Lemma fit_each_cons ml_algo it calls s :
  fit_each ((ml_algo, it) :: calls) s =
    fit_each calls (after (DefaultTuner_fit ml_algo it) s).
Proof. reflexivity. Qed.

End Sequences.

(** X6.  However many times [fit] is called on a tuner, with whatever
    algorithms and iterators and whether the calls return or raise, the
    tuner keeps its class, every entry of its [__dict__] other than
    [_best_params], its [_name] and its [_fit_on_holdout]. *)
Theorem fit_each_keeps_other_fields :
  ∀ (World : Type) (calls : list (MLAlgo World * option value)) (s : state World),
    ob_class (st_self (fit_each calls s)) = ob_class (st_self s) ∧
    delete "_best_params" (ob_dict (st_self (fit_each calls s))) =
      delete "_best_params" (ob_dict (st_self s)) ∧
    getattr (st_self (fit_each calls s)) "_name" = getattr (st_self s) "_name" ∧
    getattr (st_self (fit_each calls s)) "_fit_on_holdout" =
      getattr (st_self s) "_fit_on_holdout".
Proof.
  intros World calls. induction calls as [| [ml_algo it] calls IH]; intros s.
  - done.
  - rewrite fit_each_cons.
    destruct (IH (after (DefaultTuner_fit ml_algo it) s)) as (Hc & Hd & Hn & Hf).
    rewrite Hc, Hd, Hn, Hf, fit_step. clear IH Hc Hd Hn Hf.
    destruct (init_params_on_input ml_algo (default VNone it) (st_world s)) as [[p|e] w];
      simpl; [| done].
    repeat split.
    + apply delete_insert_eq.
    + by apply getattr_setattr_ne.
    + by apply getattr_setattr_ne.
Qed.

(** X7.  Over any sequence of calls of [fit], the only attribute ever
    assigned is [_best_params], at most once per call: the log of writes
    grows by a list of [_best_params] assignments no longer than the
    number of calls. *)
Theorem fit_each_writes_best_params_only :
  ∀ (World : Type) (calls : list (MLAlgo World * option value)) (s : state World),
    ∃ l, st_writes (fit_each calls s) = st_writes s ++ l ∧
         Forall (λ nv, nv.1 = "_best_params") l ∧
         length l ≤ length calls.
Proof.
  intros World calls. induction calls as [| [ml_algo it] calls IH]; intros s.
  - exists []. simpl. by rewrite app_nil_r.
  - rewrite fit_each_cons.
    destruct (IH (after (DefaultTuner_fit ml_algo it) s)) as (l & Hl & Hall & Hlen).
    rewrite Hl, fit_step. clear IH Hl.
    destruct (init_params_on_input ml_algo (default VNone it) (st_world s)) as [[p|e] w];
      simpl.
    + exists (("_best_params", p) :: l). rewrite <- app_assoc. simpl.
      split; [done |]. split; [by constructor | lia].
    + exists l. split; [done |]. split; [done | lia].
Qed.

(** X8.  After any sequence of calls of [fit], the tuner is the original
    one with the single assignment of what the last returning call's
    algorithm returned, and the original tuner itself when no call
    returned: earlier results and failed calls leave no trace. *)
Theorem fit_each_last_returned_wins :
  ∀ (World : Type) (calls : list (MLAlgo World * option value)) (s : state World),
    st_self (fit_each calls s) =
      match last_returned calls (st_world s) with
      | Some p => setattr (st_self s) "_best_params" p
      | None => st_self s
      end.
Proof.
  intros World calls. induction calls as [| [ml_algo it] calls IH]; intros s.
  - done.
  - rewrite fit_each_cons, IH, fit_step. simpl. clear IH.
    destruct (init_params_on_input ml_algo (default VNone it) (st_world s)) as [[p|e] w];
      simpl.
    + destruct (last_returned calls w) as [p'|]; [apply setattr_setattr | done].
    + by destruct (last_returned calls w).
Qed.

(** X9.  Over any sequence of calls of [fit], the algorithms receive the
    iterators of the calls, one each, in the order of the calls and with
    [None] for a call that gave none: spies around all the algorithms
    have recorded exactly that list. *)
Theorem fit_each_forwards_iterators :
  ∀ (World : Type) (calls : list (MLAlgo World * option value))
    (s : state (World * list value)),
    (st_world (fit_each (map (λ c, (spy c.1, c.2)) calls) s)).2 =
      (st_world s).2 ++ map (λ c, default VNone c.2) calls.
Proof.
  intros World calls. induction calls as [| [ml_algo it] calls IH]; intros s.
  - simpl. by rewrite app_nil_r.
  - cbn [map fst snd]. rewrite fit_each_cons, IH, spy_records.
    by rewrite <- app_assoc.
Qed.

(** X10.  [fit] never consults the tuner: two [DefaultTuner]s called with
    the same algorithm and iterator in the same world, whatever their
    [__dict__] holds ([_name], [_fit_on_holdout], an earlier
    [_best_params]), get the same return value or exception, leave the
    collaborators in the same state, and, when the call returns, read the
    same [best_params] afterwards. *)
Theorem fit_ignores_tuner_state :
  ∀ (World : Type) (ml_algo : MLAlgo World) (it : option value) (s s' : state World),
    ob_class (st_self s) = cDefaultTuner →
    ob_class (st_self s') = cDefaultTuner →
    st_world s = st_world s' →
    outcome (DefaultTuner_fit ml_algo it) s = outcome (DefaultTuner_fit ml_algo it) s' ∧
    st_world (after (DefaultTuner_fit ml_algo it) s) =
      st_world (after (DefaultTuner_fit ml_algo it) s') ∧
    (∀ r, outcome (DefaultTuner_fit ml_algo it) s = Ok r →
          outcome ParamsTuner_best_params (after (DefaultTuner_fit ml_algo it) s) =
          outcome ParamsTuner_best_params (after (DefaultTuner_fit ml_algo it) s')).
Proof.
  intros World ml_algo it s s' _ _ Hworld. unfold outcome, after.
  destruct (init_params_on_input ml_algo (default VNone it) (st_world s))
    as [[p|e] w] eqn:Hcall.
  - rewrite (fit_returns ml_algo it s p w Hcall).
    rewrite Hworld in Hcall. rewrite (fit_returns ml_algo it s' p w Hcall). simpl.
    repeat split. intros _ _.
    erewrite !best_params_found; [done | apply getattr_setattr_eq ..].
  - rewrite (fit_raises ml_algo it s e w Hcall).
    rewrite Hworld in Hcall. rewrite (fit_raises ml_algo it s' e w Hcall). simpl.
    repeat split. intros r [=].
Qed.

Lemma fit_ignores_tuner_state_witness :
  outcome (DefaultTuner_fit (returning (VDict [("depth", VInt 3)])) None)
    (enter DefaultTuner ()) =
  outcome (DefaultTuner_fit (returning (VDict [("depth", VInt 3)])) None)
    (enter (setattr DefaultTuner "_fit_on_holdout" (VBool true)) ()) ∧
  st_world (after (DefaultTuner_fit (returning (VDict [("depth", VInt 3)])) None)
              (enter DefaultTuner ())) =
  st_world (after (DefaultTuner_fit (returning (VDict [("depth", VInt 3)])) None)
              (enter (setattr DefaultTuner "_fit_on_holdout" (VBool true)) ())) ∧
  (∀ r, outcome (DefaultTuner_fit (returning (VDict [("depth", VInt 3)])) None)
          (enter DefaultTuner ()) = Ok r →
        outcome ParamsTuner_best_params
          (after (DefaultTuner_fit (returning (VDict [("depth", VInt 3)])) None)
             (enter DefaultTuner ())) =
        outcome ParamsTuner_best_params
          (after (DefaultTuner_fit (returning (VDict [("depth", VInt 3)])) None)
             (enter (setattr DefaultTuner "_fit_on_holdout" (VBool true)) ()))).
Proof.
  apply (fit_ignores_tuner_state unit (returning (VDict [("depth", VInt 3)])) None
           (enter DefaultTuner ())
           (enter (setattr DefaultTuner "_fit_on_holdout" (VBool true)) ()));
    reflexivity.
Defined.
